(** * Option encoders of the stream commands (go/api/options)

    A shallow embedding of [stream_options.go], of the ZSCAN options
    encoder and of the declared result shape of [XClaim], together with
    the properties of the token sequences they produce.

    Conventions of the embedding:
    - a Go [int64] is a [Z]; the encoders only compare it with [0] and
      print it, so no wrap-around arithmetic is involved;
    - a Go [[]string] is a [list string] ([append] is [++]);
    - a Go [error] is [option error]: [None] is [nil];
    - a pointer to an options struct that may be [nil] is an [option];
    - a fluent setter, which mutates its receiver and returns it, is a
      function from the receiver's state to its new state. *)

From Stdlib Require Import ZArith String Ascii List DecimalString Lia.
From Stdlib Require DecimalZ DecimalPos.
From stdpp Require Import base option list strings gmap fin_maps.

Import ListNotations.
Local Open Scope string_scope.
Local Open Scope list_scope.
Local Open Scope Z_scope.

(** ** Values shared by the encoders *)

(** Go's [error] interface value, kept as its message. *)
Definition error : Type := string.

(** What every [ToArgs] returns: the tokens and the error. *)
Definition encoded : Type := (list string * option error)%type.

(** Modelled from the spec: [utils.IntToString] lives in the [utils]
    package, which is outside the files embedded here; the specification
    writes it [str(n)], the decimal rendering of a signed integer. *)
Definition IntToString (v : Z) : string :=
  NilZero.string_of_int (Z.to_int v).

(** The characters a decimal rendering can start with. *)
Definition decimalHead (c : ascii) : bool :=
  match c with
  | "-"%char | "0"%char | "1"%char | "2"%char | "3"%char | "4"%char
  | "5"%char | "6"%char | "7"%char | "8"%char | "9"%char => true
  | _ => false
  end.

(** [type triStateBool int] with its three [iota] constants; the zero
    value of the type is [triStateBoolUndefined]. *)
Inductive triStateBool : Type :=
| triStateBoolUndefined
| triStateBoolTrue
| triStateBoolFalse.

Definition triStateBool_eqb (a b : triStateBool) : bool :=
  match a, b with
  | triStateBoolUndefined, triStateBoolUndefined => true
  | triStateBoolTrue, triStateBoolTrue => true
  | triStateBoolFalse, triStateBoolFalse => true
  | _, _ => false
  end.

(** The exactness marker of a trim specification. *)
Definition exactMarker (e : triStateBool) : list string :=
  match e with
  | triStateBoolTrue => ["="]
  | triStateBoolFalse => ["~"]
  | triStateBoolUndefined => []
  end.

(** The value carried by the last call of a chain that carries one. *)
Definition lastOf {S A : Type} (pick : S -> option A) (ss : list S)
  : option A :=
  fold_left (fun acc s => match pick s with Some a => Some a | None => acc end)
            ss None.

(** Reading a decimal rendering back. *)
Definition StringToInt (s : string) : option Z :=
  match NilZero.int_of_string s with
  | Some d => Some (Z.of_int d)
  | None => None
  end.

(** ** XTrimOptions *)

Module XTrim.

Record XTrimOptions : Type := mkXTrimOptions {
  exact : triStateBool;
  limit : Z;
  method : string;
  threshold : string
}.

Definition NewXTrimOptionsWithMinId (th : string) : XTrimOptions :=
  {| exact := triStateBoolUndefined; limit := 0;
     method := "MINID"; threshold := th |}.

Definition NewXTrimOptionsWithMaxLen (th : Z) : XTrimOptions :=
  {| exact := triStateBoolUndefined; limit := 0;
     method := "MAXLEN"; threshold := IntToString th |}.

Definition SetExactTrimming (xto : XTrimOptions) : XTrimOptions :=
  {| exact := triStateBoolTrue; limit := limit xto;
     method := method xto; threshold := threshold xto |}.

Definition SetNearlyExactTrimming (xto : XTrimOptions) : XTrimOptions :=
  {| exact := triStateBoolFalse; limit := limit xto;
     method := method xto; threshold := threshold xto |}.

Definition SetNearlyExactTrimmingAndLimit (lim : Z) (xto : XTrimOptions)
  : XTrimOptions :=
  {| exact := triStateBoolFalse; limit := lim;
     method := method xto; threshold := threshold xto |}.

Definition ToArgs (xto : XTrimOptions) : encoded :=
  let args : list string := [] in
  let args := args ++ [method xto] in
  let args :=
    if triStateBool_eqb (exact xto) triStateBoolTrue then args ++ ["="]
    else if triStateBool_eqb (exact xto) triStateBoolFalse then args ++ ["~"]
    else args in
  let args := args ++ [threshold xto] in
  let args :=
    if 0 <? limit xto then args ++ ["LIMIT"; IntToString (limit xto)]
    else args in
  let err : option error := None in
  (args, err).

(** The specification with its limit as both factories leave it. *)
Definition unsetLimit (xto : XTrimOptions) : XTrimOptions :=
  {| exact := exact xto; limit := 0;
     method := method xto; threshold := threshold xto |}.

(** The calls a client can make on a trim specification once it is
    built: the three exported setters. *)
Inductive setter : Type :=
| CallSetExactTrimming
| CallSetNearlyExactTrimming
| CallSetNearlyExactTrimmingAndLimit (lim : Z).

Definition call (xto : XTrimOptions) (s : setter) : XTrimOptions :=
  match s with
  | CallSetExactTrimming => SetExactTrimming xto
  | CallSetNearlyExactTrimming => SetNearlyExactTrimming xto
  | CallSetNearlyExactTrimmingAndLimit lim =>
      SetNearlyExactTrimmingAndLimit lim xto
  end.

Definition calls (xto : XTrimOptions) (ss : list setter) : XTrimOptions :=
  fold_left call ss xto.

(** What a call writes into [exact] (every setter writes it) and into
    [limit] (only one setter does). *)
Definition exactOf (s : setter) : option triStateBool :=
  match s with
  | CallSetExactTrimming => Some triStateBoolTrue
  | CallSetNearlyExactTrimming => Some triStateBoolFalse
  | CallSetNearlyExactTrimmingAndLimit _ => Some triStateBoolFalse
  end.

Definition limitOf (s : setter) : option Z :=
  match s with
  | CallSetNearlyExactTrimmingAndLimit lim => Some lim
  | _ => None
  end.

End XTrim.

(** ** XAddOptions *)

Module XAdd.

Record XAddOptions : Type := mkXAddOptions {
  id : string;
  makeStream : triStateBool;
  trimOptions : option XTrim.XTrimOptions
}.

Definition NewXAddOptions : XAddOptions :=
  {| id := ""; makeStream := triStateBoolUndefined; trimOptions := None |}.

Definition SetId (i : string) (xao : XAddOptions) : XAddOptions :=
  {| id := i; makeStream := makeStream xao;
     trimOptions := trimOptions xao |}.

Definition SetDontMakeNewStream (xao : XAddOptions) : XAddOptions :=
  {| id := id xao; makeStream := triStateBoolFalse;
     trimOptions := trimOptions xao |}.

Definition SetTrimOptions (options : option XTrim.XTrimOptions)
    (xao : XAddOptions) : XAddOptions :=
  {| id := id xao; makeStream := makeStream xao; trimOptions := options |}.

(** The last step of [ToArgs]: the id, or the sentinel. *)
Definition appendId (xao : XAddOptions) (args : list string) : list string :=
  if negb (String.eqb (id xao) "") then args ++ [id xao] else args ++ ["*"].

(** The body of [ToArgs], with the encode step of the attached trim
    specification as [trimToArgs]. The outer [err] is declared and never
    assigned: the [err] bound inside the [if] shadows it. *)
Definition ToArgsWith (trimToArgs : XTrim.XTrimOptions -> encoded)
    (xao : XAddOptions) : encoded :=
  let args : list string := [] in
  let err : option error := None in
  let args :=
    if triStateBool_eqb (makeStream xao) triStateBoolFalse
    then args ++ ["NOMKSTREAM"] else args in
  match trimOptions xao with
  | Some options =>
      let '(moreArgs, err') := trimToArgs options in
      match err' with
      | Some e => (args, Some e)
      | None => (appendId xao (args ++ moreArgs), err)
      end
  | None => (appendId xao args, err)
  end.

Definition ToArgs (xao : XAddOptions) : encoded :=
  ToArgsWith XTrim.ToArgs xao.

(** The exported builder methods of the add options. *)
Inductive setter : Type :=
| CallSetId (i : string)
| CallSetDontMakeNewStream
| CallSetTrimOptions (options : option XTrim.XTrimOptions).

Definition call (xao : XAddOptions) (s : setter) : XAddOptions :=
  match s with
  | CallSetId i => SetId i xao
  | CallSetDontMakeNewStream => SetDontMakeNewStream xao
  | CallSetTrimOptions options => SetTrimOptions options xao
  end.

Definition calls (xao : XAddOptions) (ss : list setter) : XAddOptions :=
  fold_left call ss xao.

Definition idOf (s : setter) : option string :=
  match s with CallSetId i => Some i | _ => None end.

Definition trimOf (s : setter) : option (option XTrim.XTrimOptions) :=
  match s with CallSetTrimOptions options => Some options | _ => None end.

Definition isDontMake (s : setter) : bool :=
  match s with CallSetDontMakeNewStream => true | _ => false end.

End XAdd.

(** ** StreamClaimOptions *)

Module Claim.

Record StreamClaimOptions : Type := mkStreamClaimOptions {
  idleTime : Z;
  idleUnixTime : Z;
  retryCount : Z;
  isForce : bool
}.

Definition NewStreamClaimOptions : StreamClaimOptions :=
  {| idleTime := 0; idleUnixTime := 0; retryCount := 0; isForce := false |}.

Definition SetIdleTime (v : Z) (sco : StreamClaimOptions)
  : StreamClaimOptions :=
  {| idleTime := v; idleUnixTime := idleUnixTime sco;
     retryCount := retryCount sco; isForce := isForce sco |}.

Definition SetIdleUnixTime (v : Z) (sco : StreamClaimOptions)
  : StreamClaimOptions :=
  {| idleTime := idleTime sco; idleUnixTime := v;
     retryCount := retryCount sco; isForce := isForce sco |}.

Definition SetRetryCount (v : Z) (sco : StreamClaimOptions)
  : StreamClaimOptions :=
  {| idleTime := idleTime sco; idleUnixTime := idleUnixTime sco;
     retryCount := v; isForce := isForce sco |}.

Definition IDLE_VALKEY_API : string := "IDLE".
Definition TIME_VALKEY_API : string := "TIME".
Definition RETRY_COUNT_VALKEY_API : string := "RETRYCOUNT".
Definition FORCE_VALKEY_API : string := "FORCE".
Definition JUST_ID_VALKEY_API : string := "JUSTID".

Definition ToArgs (sco : StreamClaimOptions) : encoded :=
  let optionArgs : list string := [] in
  let optionArgs :=
    if 0 <? idleTime sco
    then optionArgs ++ [IDLE_VALKEY_API; IntToString (idleTime sco)]
    else optionArgs in
  let optionArgs :=
    if 0 <? idleUnixTime sco
    then optionArgs ++ [TIME_VALKEY_API; IntToString (idleUnixTime sco)]
    else optionArgs in
  let optionArgs :=
    if 0 <? retryCount sco
    then optionArgs ++ [RETRY_COUNT_VALKEY_API; IntToString (retryCount sco)]
    else optionArgs in
  let optionArgs :=
    if isForce sco then optionArgs ++ [FORCE_VALKEY_API] else optionArgs in
  (optionArgs, None).

(** The exported builder methods of the claim options. *)
Inductive setter : Type :=
| CallSetIdleTime (v : Z)
| CallSetIdleUnixTime (v : Z)
| CallSetRetryCount (v : Z).

Definition call (sco : StreamClaimOptions) (s : setter)
  : StreamClaimOptions :=
  match s with
  | CallSetIdleTime v => SetIdleTime v sco
  | CallSetIdleUnixTime v => SetIdleUnixTime v sco
  | CallSetRetryCount v => SetRetryCount v sco
  end.

Definition calls (sco : StreamClaimOptions) (ss : list setter)
  : StreamClaimOptions :=
  fold_left call ss sco.

(** The numeric fields, each with its setter. *)
Inductive field : Type := IdleTime | IdleUnixTime | RetryCount.

Definition get (f : field) (sco : StreamClaimOptions) : Z :=
  match f with
  | IdleTime => idleTime sco
  | IdleUnixTime => idleUnixTime sco
  | RetryCount => retryCount sco
  end.

Definition set (f : field) (v : Z) (sco : StreamClaimOptions)
  : StreamClaimOptions :=
  match f with
  | IdleTime => SetIdleTime v sco
  | IdleUnixTime => SetIdleUnixTime v sco
  | RetryCount => SetRetryCount v sco
  end.

(** The options with one field as [NewStreamClaimOptions] leaves it. *)
Definition unset (f : field) (sco : StreamClaimOptions) : StreamClaimOptions :=
  set f (get f NewStreamClaimOptions) sco.

Definition callTo (f : field) (v : Z) : setter :=
  match f with
  | IdleTime => CallSetIdleTime v
  | IdleUnixTime => CallSetIdleUnixTime v
  | RetryCount => CallSetRetryCount v
  end.

Definition isCallTo (f : field) (s : setter) : bool :=
  match f, s with
  | IdleTime, CallSetIdleTime _ => true
  | IdleUnixTime, CallSetIdleUnixTime _ => true
  | RetryCount, CallSetRetryCount _ => true
  | _, _ => false
  end.

(** A sequence of calls without the calls to the setter of [f]. *)
Definition leaveUnset (f : field) (ss : list setter) : list setter :=
  List.filter (fun s => negb (isCallTo f s)) ss.

(** The keyword/value pair of a numeric field, when it is emitted. *)
Definition pair (keyword : string) (v : Z) : list string :=
  if Z_lt_dec 0 v then [keyword; IntToString v] else [].

(** The value a call writes into the field [f], if it writes it. *)
Definition valueOf (f : field) (s : setter) : option Z :=
  match f, s with
  | IdleTime, CallSetIdleTime v => Some v
  | IdleUnixTime, CallSetIdleUnixTime v => Some v
  | RetryCount, CallSetRetryCount v => Some v
  | _, _ => None
  end.

(** The options as the encoder reads them: a numeric field that is not
    strictly positive counts as [0]. *)
Definition effective (sco : StreamClaimOptions) : StreamClaimOptions :=
  {| idleTime := Z.max 0 (idleTime sco);
     idleUnixTime := Z.max 0 (idleUnixTime sco);
     retryCount := Z.max 0 (retryCount sco);
     isForce := isForce sco |}.

End Claim.

(** Two option values that agree on the force flag and on every numeric
    field but [f]. *)
Definition agreeBut (f : Claim.field) (a b : Claim.StreamClaimOptions) : Prop :=
  Claim.isForce a = Claim.isForce b
  /\ forall g, g <> f -> Claim.get g a = Claim.get g b.

(** ** ZScanOptions *)

Module ZScan.

Section WithBase.

(** [BaseScanOptions], its [ToArgs] and the [NoScores] keyword are
    declared in other files of the package: the encoder is read over
    them. *)
Variable BaseScanOptions : Type.
Variable BaseScanOptions_ToArgs : BaseScanOptions -> encoded.
Variable NoScores : string.

Record ZScanOptions : Type := mkZScanOptions {
  base : BaseScanOptions;
  noScores : bool
}.

Definition SetNoScores (b : bool) (zScanOptions : ZScanOptions)
  : ZScanOptions :=
  {| base := base zScanOptions; noScores := b |}.

Definition ToArgs (options : ZScanOptions) : encoded :=
  let args : list string := [] in
  let '(baseArgs, err) := BaseScanOptions_ToArgs (base options) in
  let args := args ++ baseArgs in
  let args := if noScores options then args ++ [NoScores] else args in
  (args, err).

(** The zero value of [BaseScanOptions] and its two setters, declared
    with it in another file of the package. *)
Variable BaseScanOptions_zero : BaseScanOptions.
Variable BaseScanOptions_SetMatch : string -> BaseScanOptions -> BaseScanOptions.
Variable BaseScanOptions_SetCount : Z -> BaseScanOptions -> BaseScanOptions.

Definition NewZScanOptionsBuilder : ZScanOptions :=
  {| base := BaseScanOptions_zero; noScores := false |}.

Definition SetMatch (m : string) (zScanOptions : ZScanOptions)
  : ZScanOptions :=
  {| base := BaseScanOptions_SetMatch m (base zScanOptions);
     noScores := noScores zScanOptions |}.

Definition SetCount (count : Z) (zScanOptions : ZScanOptions)
  : ZScanOptions :=
  {| base := BaseScanOptions_SetCount count (base zScanOptions);
     noScores := noScores zScanOptions |}.

(** The builder methods of the scan options, and the ones among them
    that act on the embedded base. *)
Inductive setter : Type :=
| CallSetNoScores (b : bool)
| CallSetMatch (m : string)
| CallSetCount (count : Z).

Definition call (z : ZScanOptions) (s : setter) : ZScanOptions :=
  match s with
  | CallSetNoScores b => SetNoScores b z
  | CallSetMatch m => SetMatch m z
  | CallSetCount count => SetCount count z
  end.

Definition calls (z : ZScanOptions) (ss : list setter) : ZScanOptions :=
  fold_left call ss z.

Definition baseCall (b : BaseScanOptions) (s : setter) : BaseScanOptions :=
  match s with
  | CallSetNoScores _ => b
  | CallSetMatch m => BaseScanOptions_SetMatch m b
  | CallSetCount count => BaseScanOptions_SetCount count b
  end.

Definition baseCalls (b : BaseScanOptions) (ss : list setter)
  : BaseScanOptions :=
  fold_left baseCall ss b.

Definition noScoresOf (s : setter) : option bool :=
  match s with CallSetNoScores b => Some b | _ => None end.

End WithBase.

Arguments mkZScanOptions {BaseScanOptions} _ _.
Arguments base {BaseScanOptions} _.
Arguments noScores {BaseScanOptions} _.
Arguments SetNoScores {BaseScanOptions} _ _.
Arguments ToArgs {BaseScanOptions} _ _ _.
Arguments NewZScanOptionsBuilder {BaseScanOptions} _.
Arguments SetMatch {BaseScanOptions} _ _ _.
Arguments SetCount {BaseScanOptions} _ _ _.
Arguments call {BaseScanOptions} _ _ _ _.
Arguments calls {BaseScanOptions} _ _ _ _.
Arguments baseCall {BaseScanOptions} _ _ _ _.
Arguments baseCalls {BaseScanOptions} _ _ _ _.

End ZScan.

(** ** The claim commands of [StreamCommands] *)

Module Stream.

(** Modelled from the spec: [Result[T]] of the [api] package is declared
    outside the files embedded here; a returned string is [present] or
    [absent], so a value and its nil flag. It is the key type of the map
    [XClaim] returns, hence comparable. *)
Record Result (T : Type) : Type := mkResult { val : T; isNil : bool }.
Arguments mkResult {T} _ _.
Arguments val {T} _.
Arguments isNil {T} _.

#[export] Instance Result_eq_dec {T} `{EqDecision T} : EqDecision (Result T).
Proof. solve_decision. Defined.

#[export] Instance Result_countable {T} `{Countable T} : Countable (Result T).
Proof.
  apply (inj_countable' (fun r => (val r, isNil r))
                        (fun p => mkResult (fst p) (snd p))).
  intros [v n]. reflexivity.
Defined.

(** One entry of the store's reply: the entry id and its field/value
    pairs, [[][]Result[string]], in the store's order. *)
Definition entry : Type :=
  (Result string * list (list (Result string)))%type.

(** Modelled from the spec: the implementation of [XClaim] and of the
    reply projection is outside the files embedded here, only the
    interface declaration is. The specification has the raw reply
    [projected into the declared return shape]; the declared shape is
    the Go map [map[Result[string]][][]Result[string]], filled entry by
    entry in the order of the reply. *)
Definition toClaimMap (reply : list entry)
  : gmap (Result string) (list (list (Result string))) :=
  fold_left (fun m e => <[fst e := snd e]> m) reply ∅.

Section Surface.

(** The external executor, applied to the claim command: it takes the
    ordered tokens and answers with the claimed entries or fails. *)
Variable Execute : list string -> list entry + error.

(** Modelled from the spec: [XClaimWithOptions] is only declared in
    the files embedded here. The options are lowered to tokens, which
    follow the positional arguments; an encoding failure returns
    before the executor is called, an executor failure is passed
    through, and a reply is projected into the declared map. *)
Definition XClaimWithOptions (key group consumer : string)
    (minIdleTime : Z) (ids : list string)
    (options : Claim.StreamClaimOptions)
  : gmap (Result string) (list (list (Result string))) * option error :=
  let args := [key; group; consumer; IntToString minIdleTime] ++ ids in
  let '(optionArgs, err) := Claim.ToArgs options in
  match err with
  | Some e => (∅, Some e)
  | None =>
      match Execute (args ++ optionArgs) with
      | inr e => (∅, Some e)
      | inl reply => (toClaimMap reply, None)
      end
  end.

(** Modelled from the spec: the [default options] overload. *)
Definition XClaim (key group consumer : string) (minIdleTime : Z)
    (ids : list string)
  : gmap (Result string) (list (list (Result string))) * option error :=
  XClaimWithOptions key group consumer minIdleTime ids
                    Claim.NewStreamClaimOptions.

End Surface.

End Stream.

(** ** Add options that share a trim specification

    [SetTrimOptions] stores the pointer it is given. The trim
    specifications live in a store, addressed by their pointers; add
    options hold an address. *)

Module Shared.

Definition addr : Type := positive.

Record XAddOptions : Type := mkXAddOptions {
  id : string;
  makeStream : triStateBool;
  trimOptions : option addr
}.

Definition SetTrimOptions (options : option addr) (xao : XAddOptions)
  : XAddOptions :=
  {| id := id xao; makeStream := makeStream xao; trimOptions := options |}.

(** A setter called through a pointer to a trim specification. *)
Definition callTrim (p : addr) (s : XTrim.setter)
    (store : gmap addr XTrim.XTrimOptions) : gmap addr XTrim.XTrimOptions :=
  alter (fun xto => XTrim.call xto s) p store.

(** The add options with the pointer followed; [None] when the address
    is not allocated, which a Go pointer never is. *)
Definition load (store : gmap addr XTrim.XTrimOptions) (xao : XAddOptions)
  : option XAdd.XAddOptions :=
  match trimOptions xao with
  | None =>
      Some {| XAdd.id := id xao; XAdd.makeStream := makeStream xao;
              XAdd.trimOptions := None |}
  | Some p =>
      match store !! p with
      | Some xto =>
          Some {| XAdd.id := id xao; XAdd.makeStream := makeStream xao;
                  XAdd.trimOptions := Some xto |}
      | None => None
      end
  end.

Definition ToArgs (store : gmap addr XTrim.XTrimOptions) (xao : XAddOptions)
  : option encoded :=
  match load store xao with
  | Some v => Some (XAdd.ToArgs v)
  | None => None
  end.

End Shared.

(** The outputs a trim specification with method [m] and threshold [t]
    can have when a [LIMIT] pair only comes with an exactness marker. *)
Definition trimShape (m t : string) (xto : XTrim.XTrimOptions) : Prop :=
  fst (XTrim.ToArgs xto) = [m; t]
  \/ exists marker,
       (marker = "=" \/ marker = "~")
       /\ (fst (XTrim.ToArgs xto) = [m; marker; t]
           \/ 0 < XTrim.limit xto
              /\ fst (XTrim.ToArgs xto)
                 = [m; marker; t; "LIMIT"; IntToString (XTrim.limit xto)]).

(** ** Concrete values used by the examples below *)

(** A store with one trim specification, and add options that point
    to it. *)
Definition oneTrimStore : gmap Shared.addr XTrim.XTrimOptions :=
  {[ 1%positive := XTrim.NewXTrimOptionsWithMaxLen 1000 ]}.

Definition addWithSharedTrim : Shared.XAddOptions :=
  {| Shared.id := ""; Shared.makeStream := triStateBoolUndefined;
     Shared.trimOptions := Some 1%positive |}.

(** An encode step that fails after producing no token. *)
Definition failingTrimToArgs (_ : XTrim.XTrimOptions) : encoded :=
  ([], Some "invalid trim options").

(** A base scan encoder over a one-value base type that fails after
    producing the [MATCH] pair. *)
Definition failingBaseToArgs (_ : unit) : encoded :=
  (["MATCH"; "a*"], Some "invalid scan options").

Definition strResult (s : string) : Stream.Result string :=
  Stream.mkResult s false.

Definition entryOne : Stream.entry :=
  (strResult "1-0", [[strResult "field1"; strResult "value1"]]).

Definition entryTwo : Stream.entry :=
  (strResult "2-0", [[strResult "field2"; strResult "value2"]]).

(** An executor that answers every claim with the two entries above. *)
Definition twoEntriesExecute (_ : list string) : list Stream.entry + error :=
  inl [entryOne; entryTwo].

(** An executor that answers with the same entries, the other way round. *)
Definition twoEntriesReversedExecute (_ : list string)
  : list Stream.entry + error :=
  inl [entryTwo; entryOne].

(** Add options that forbid stream creation and carry a trim
    specification. *)
Definition addNoCreateTrim : XAdd.XAddOptions :=
  XAdd.SetTrimOptions (Some (XTrim.NewXTrimOptionsWithMaxLen 1000))
    (XAdd.SetDontMakeNewStream XAdd.NewXAddOptions).

Example IntToString_pos : IntToString 1000 = "1000".
Proof. reflexivity. Qed.

Example IntToString_zero : IntToString 0 = "0".
Proof. reflexivity. Qed.

Example IntToString_neg : IntToString (-42) = "-42".
Proof. reflexivity. Qed.

Example XAdd_default : XAdd.ToArgs XAdd.NewXAddOptions = (["*"], None).
Proof. reflexivity. Qed.

Example XAdd_id_nomkstream :
  XAdd.ToArgs (XAdd.SetDontMakeNewStream (XAdd.SetId "100-500" XAdd.NewXAddOptions))
  = (["NOMKSTREAM"; "100-500"], None).
Proof. reflexivity. Qed.

Example XAdd_trim_approx :
  XAdd.ToArgs
    (XAdd.SetTrimOptions
       (Some (XTrim.SetNearlyExactTrimming (XTrim.NewXTrimOptionsWithMaxLen 1000)))
       XAdd.NewXAddOptions)
  = (["MAXLEN"; "~"; "1000"; "*"], None).
Proof. reflexivity. Qed.

Example Claim_retry_force :
  Claim.ToArgs {| Claim.idleTime := 0; Claim.idleUnixTime := 0;
                  Claim.retryCount := 3; Claim.isForce := true |}
  = (["RETRYCOUNT"; "3"; "FORCE"], None).
Proof. reflexivity. Qed.

(** ** The decimal rendering never collides with a keyword *)

Lemma IntToString_head (v : Z) :
  exists c s, IntToString v = String c s /\ decimalHead c = true.
Proof.
  unfold IntToString.
  destruct (Z.to_int v) as [d | d]; cbn.
  - destruct d; cbn; eauto.
  - eauto.
Qed.

Lemma IntToString_not_FORCE (v : Z) : IntToString v <> "FORCE".
Proof.
  destruct (IntToString_head v) as (c & s & -> & Hc).
  intros [= -> _]. discriminate Hc.
Qed.

Lemma triStateBool_eqb_eq (a b : triStateBool) :
  triStateBool_eqb a b = true <-> a = b.
Proof. destruct a, b; cbn; split; congruence. Qed.

(** ** XTrimOptions.ToArgs *)

Lemma XTrim_ToArgs_eq (xto : XTrim.XTrimOptions) :
  XTrim.ToArgs xto =
  ([XTrim.method xto] ++ exactMarker (XTrim.exact xto)
     ++ [XTrim.threshold xto]
     ++ (if Z_lt_dec 0 (XTrim.limit xto)
         then ["LIMIT"; IntToString (XTrim.limit xto)] else []),
   None).
Proof.
  unfold XTrim.ToArgs.
  destruct (XTrim.exact xto); cbn;
    destruct (Z.ltb_spec 0 (XTrim.limit xto)), (Z_lt_dec 0 (XTrim.limit xto));
    solve [reflexivity | lia].
Qed.

Lemma XTrim_ToArgs_head (xto : XTrim.XTrimOptions) :
  head (fst (XTrim.ToArgs xto)) = Some (XTrim.method xto).
Proof. rewrite XTrim_ToArgs_eq. reflexivity. Qed.

Lemma exactMarker_not_LIMIT (e : triStateBool) : ~ In "LIMIT" (exactMarker e).
Proof. destruct e; cbn; intuition discriminate. Qed.

(** C2 (as amended). [XTrimOptions.ToArgs] returns the method, then the
    exactness marker ([=] for the explicit-true state, [~] for the
    explicit-false state, nothing when unset), then the threshold, then
    the pair [LIMIT], [str(limit)] exactly when the limit is positive, and
    no error. With limit [0] no [LIMIT] pair is appended, so the output
    holds the string [LIMIT] only when the method or the threshold is that
    very string; with a positive limit the output ends with the pair. *)
Theorem XTrim_ToArgs_tokens (xto : XTrim.XTrimOptions) :
  XTrim.ToArgs xto =
    ([XTrim.method xto]
       ++ match XTrim.exact xto with
          | triStateBoolTrue => ["="]
          | triStateBoolFalse => ["~"]
          | triStateBoolUndefined => []
          end
       ++ [XTrim.threshold xto]
       ++ (if Z_lt_dec 0 (XTrim.limit xto)
           then ["LIMIT"; IntToString (XTrim.limit xto)] else []),
     None)
  /\ (XTrim.limit xto = 0 ->
      fst (XTrim.ToArgs xto) =
        [XTrim.method xto] ++ exactMarker (XTrim.exact xto)
          ++ [XTrim.threshold xto]
      /\ (In "LIMIT" (fst (XTrim.ToArgs xto)) <->
          XTrim.method xto = "LIMIT" \/ XTrim.threshold xto = "LIMIT"))
  /\ (0 < XTrim.limit xto ->
      exists front,
        fst (XTrim.ToArgs xto) =
          front ++ ["LIMIT"; IntToString (XTrim.limit xto)]).
Proof.
  split; [apply XTrim_ToArgs_eq |].
  rewrite XTrim_ToArgs_eq. cbn [fst]. split.
  - intros Hz. rewrite Hz.
    destruct (Z_lt_dec 0 0) as [Hlt | _]; [lia |].
    split; [reflexivity |].
    pose proof (exactMarker_not_LIMIT (XTrim.exact xto)) as Hm.
    rewrite !in_app_iff. cbn. intuition.
  - intros Hpos.
    destruct (Z_lt_dec 0 (XTrim.limit xto)) as [_ | Hn]; [| lia].
    exists ([XTrim.method xto] ++ exactMarker (XTrim.exact xto)
              ++ [XTrim.threshold xto]).
    rewrite <- !app_assoc. reflexivity.
Qed.

Lemma XTrim_ToArgs_tokens_witness :
  (In "LIMIT" (fst (XTrim.ToArgs (XTrim.NewXTrimOptionsWithMinId "5-0"))) <->
   XTrim.method (XTrim.NewXTrimOptionsWithMinId "5-0") = "LIMIT"
   \/ XTrim.threshold (XTrim.NewXTrimOptionsWithMinId "5-0") = "LIMIT")
  /\ exists front,
      fst (XTrim.ToArgs
             (XTrim.SetNearlyExactTrimmingAndLimit 10
                (XTrim.NewXTrimOptionsWithMaxLen 1000)))
      = front ++ ["LIMIT"; "10"].
Proof.
  split.
  - apply (proj1 (proj2 (XTrim_ToArgs_tokens
             (XTrim.NewXTrimOptionsWithMinId "5-0")))).
    reflexivity.
  - apply (proj2 (proj2 (XTrim_ToArgs_tokens
             (XTrim.SetNearlyExactTrimmingAndLimit 10
                (XTrim.NewXTrimOptionsWithMaxLen 1000))))).
    vm_compute. reflexivity.
Defined.

(** C2 as stated fails: a min-id specification whose threshold is the
    string [LIMIT] has limit [0] and yet its output holds [LIMIT]. *)
Lemma XTrim_limit_zero_holds_LIMIT :
  XTrim.limit (XTrim.NewXTrimOptionsWithMinId "LIMIT") = 0
  /\ XTrim.ToArgs (XTrim.NewXTrimOptionsWithMinId "LIMIT")
     = (["MINID"; "LIMIT"], None)
  /\ In "LIMIT" (fst (XTrim.ToArgs (XTrim.NewXTrimOptionsWithMinId "LIMIT"))).
Proof.
  split; [reflexivity |]. split; [reflexivity |].
  cbn. right. left. reflexivity.
Qed.

(** ** XAddOptions.ToArgs *)

(** C1. [XAddOptions.ToArgs] returns [NOMKSTREAM] exactly when
    [makeStream] is the explicit-false state, then the tokens of the
    attached trim specification if there is one, then, last, the id if it
    is not empty and the sentinel [*] otherwise. *)
Theorem XAdd_ToArgs_tokens (xao : XAdd.XAddOptions) :
  XAdd.ToArgs xao =
    (match XAdd.makeStream xao with
     | triStateBoolFalse => ["NOMKSTREAM"]
     | _ => []
     end
       ++ match XAdd.trimOptions xao with
          | Some options => fst (XTrim.ToArgs options)
          | None => []
          end
       ++ [match XAdd.id xao with
           | EmptyString => "*"
           | String _ _ => XAdd.id xao
           end],
     None).
Proof.
  unfold XAdd.ToArgs, XAdd.ToArgsWith, XAdd.appendId.
  destruct xao as [i mk [options |]]; cbn [XAdd.id XAdd.makeStream XAdd.trimOptions].
  - rewrite XTrim_ToArgs_eq. cbn [fst].
    destruct mk, i; cbn; rewrite <- ?app_assoc; reflexivity.
  - destruct mk, i; reflexivity.
Qed.

(** ** StreamClaimOptions.ToArgs *)

Lemma Claim_ToArgs_eq (sco : Claim.StreamClaimOptions) :
  Claim.ToArgs sco =
  (Claim.pair "IDLE" (Claim.idleTime sco)
     ++ Claim.pair "TIME" (Claim.idleUnixTime sco)
     ++ Claim.pair "RETRYCOUNT" (Claim.retryCount sco)
     ++ (if Claim.isForce sco then ["FORCE"] else []),
   None).
Proof.
  unfold Claim.ToArgs, Claim.pair.
  destruct (Z.ltb_spec 0 (Claim.idleTime sco)),
           (Z_lt_dec 0 (Claim.idleTime sco)); try lia;
  destruct (Z.ltb_spec 0 (Claim.idleUnixTime sco)),
           (Z_lt_dec 0 (Claim.idleUnixTime sco)); try lia;
  destruct (Z.ltb_spec 0 (Claim.retryCount sco)),
           (Z_lt_dec 0 (Claim.retryCount sco)); try lia;
  destruct (Claim.isForce sco); reflexivity.
Qed.

(** C3. [StreamClaimOptions.ToArgs] returns, in this order, [IDLE] and
    [str(idleTime)] when [idleTime] is strictly positive, [TIME] and
    [str(idleUnixTime)] when [idleUnixTime] is, [RETRYCOUNT] and
    [str(retryCount)] when [retryCount] is, and the bare [FORCE] when the
    force flag is set, and nothing else; fully unset options give the
    empty token list. *)
Theorem Claim_ToArgs_tokens (sco : Claim.StreamClaimOptions) :
  Claim.ToArgs sco =
    ((if Z_lt_dec 0 (Claim.idleTime sco)
      then ["IDLE"; IntToString (Claim.idleTime sco)] else [])
       ++ (if Z_lt_dec 0 (Claim.idleUnixTime sco)
           then ["TIME"; IntToString (Claim.idleUnixTime sco)] else [])
       ++ (if Z_lt_dec 0 (Claim.retryCount sco)
           then ["RETRYCOUNT"; IntToString (Claim.retryCount sco)] else [])
       ++ (if Claim.isForce sco then ["FORCE"] else []),
     None)
  /\ Claim.ToArgs Claim.NewStreamClaimOptions = ([], None).
Proof.
  split; [apply Claim_ToArgs_eq | reflexivity].
Qed.

(** ** The method of a trim specification is fixed by its factory *)

Lemma XTrim_call_method (xto : XTrim.XTrimOptions) (s : XTrim.setter) :
  XTrim.method (XTrim.call xto s) = XTrim.method xto.
Proof. destruct s; reflexivity. Qed.

Lemma XTrim_calls_method (ss : list XTrim.setter) :
  forall xto, XTrim.method (XTrim.calls xto ss) = XTrim.method xto.
Proof.
  unfold XTrim.calls.
  induction ss as [| s ss IH]; intros xto; cbn.
  - reflexivity.
  - rewrite IH. apply XTrim_call_method.
Qed.

(** C6. Whatever exported setters are called, in whatever order, on a
    trim specification made by the max-length factory, its method stays
    [MAXLEN] and [MAXLEN] is the first token of [ToArgs]; likewise
    [MINID] for the min-id factory. *)
Theorem XTrim_method_fixed (ss : list XTrim.setter) :
  (forall th : Z,
     XTrim.method (XTrim.calls (XTrim.NewXTrimOptionsWithMaxLen th) ss)
       = "MAXLEN"
     /\ head (fst (XTrim.ToArgs
                     (XTrim.calls (XTrim.NewXTrimOptionsWithMaxLen th) ss)))
        = Some "MAXLEN")
  /\ (forall th : string,
        XTrim.method (XTrim.calls (XTrim.NewXTrimOptionsWithMinId th) ss)
          = "MINID"
        /\ head (fst (XTrim.ToArgs
                        (XTrim.calls (XTrim.NewXTrimOptionsWithMinId th) ss)))
           = Some "MINID").
Proof.
  split; intros th; rewrite XTrim_ToArgs_head, XTrim_calls_method;
    split; reflexivity.
Qed.

(** ** No encoder of the stream options fails *)

(** C7. [ToArgs] of a trim specification, of claim options and of add
    options (with or without a trim specification) returns a nil error;
    the nested trim encoder always returns its tokens with a nil error,
    so the error branch of [XAddOptions.ToArgs] is never taken and its
    result is the one of the final return. *)
Theorem ToArgs_never_fails :
  (forall xto, snd (XTrim.ToArgs xto) = None)
  /\ (forall sco, snd (Claim.ToArgs sco) = None)
  /\ (forall xao, snd (XAdd.ToArgs xao) = None)
  /\ (forall options, exists moreArgs,
        XTrim.ToArgs options = (moreArgs, None))
  /\ (forall xao,
        XAdd.ToArgs xao =
          (XAdd.appendId xao
             ((if triStateBool_eqb (XAdd.makeStream xao) triStateBoolFalse
               then ["NOMKSTREAM"] else [])
                ++ match XAdd.trimOptions xao with
                   | Some options => fst (XTrim.ToArgs options)
                   | None => []
                   end),
           None)).
Proof.
  repeat split.
  - intros xao. unfold XAdd.ToArgs, XAdd.ToArgsWith.
    destruct (XAdd.trimOptions xao) as [options |]; [| reflexivity].
    rewrite XTrim_ToArgs_eq. reflexivity.
  - intros options. rewrite XTrim_ToArgs_eq. eauto.
  - intros xao. unfold XAdd.ToArgs, XAdd.ToArgsWith.
    destruct (XAdd.trimOptions xao) as [options |].
    + rewrite XTrim_ToArgs_eq. reflexivity.
    + rewrite app_nil_r. reflexivity.
Qed.

(** ** StreamClaimOptions: zero, negative and unset values *)

Lemma Claim_pair_nonpositive (keyword : string) (v : Z) :
  v <= 0 -> Claim.pair keyword v = [].
Proof. intros Hv. unfold Claim.pair. destruct (Z_lt_dec 0 v); [lia | reflexivity]. Qed.

Lemma agreeBut_eq (f : Claim.field) (a b : Claim.StreamClaimOptions) :
  agreeBut f a b -> Claim.get f a = Claim.get f b -> a = b.
Proof.
  intros [Hforce Hget] Hf.
  pose proof (Hget Claim.IdleTime) as H1.
  pose proof (Hget Claim.IdleUnixTime) as H2.
  pose proof (Hget Claim.RetryCount) as H3.
  destruct a, b, f; cbn in *; f_equal;
    solve [assumption | apply H1; discriminate
          | apply H2; discriminate | apply H3; discriminate].
Qed.

Lemma agreeBut_call (f : Claim.field) (s : Claim.setter)
    (a b : Claim.StreamClaimOptions) :
  agreeBut f a b ->
  agreeBut f (Claim.call a s)
             (if Claim.isCallTo f s then b else Claim.call b s).
Proof.
  intros [Hforce Hget].
  pose proof (Hget Claim.IdleTime) as H1.
  pose proof (Hget Claim.IdleUnixTime) as H2.
  pose proof (Hget Claim.RetryCount) as H3.
  split; [destruct f, s; exact Hforce |].
  intros g Hg; destruct f, s, g; cbn in *;
    solve [reflexivity | congruence | apply H1; discriminate
          | apply H2; discriminate | apply H3; discriminate].
Qed.

Lemma agreeBut_calls (f : Claim.field) (ss : list Claim.setter) :
  forall a b,
    agreeBut f a b ->
    agreeBut f (Claim.calls a ss) (Claim.calls b (Claim.leaveUnset f ss)).
Proof.
  unfold Claim.calls, Claim.leaveUnset.
  induction ss as [| s ss IH]; intros a b Hab; cbn; [assumption |].
  pose proof (agreeBut_call f s a b Hab) as Hs.
  destruct (Claim.isCallTo f s); cbn; apply IH; exact Hs.
Qed.

Lemma get_calls_leaveUnset (f : Claim.field) (ss : list Claim.setter) :
  forall a,
    Claim.get f (Claim.calls a (Claim.leaveUnset f ss)) = Claim.get f a.
Proof.
  unfold Claim.calls, Claim.leaveUnset.
  induction ss as [| s ss IH]; intros a; cbn; [reflexivity |].
  destruct (Claim.isCallTo f s) eqn:Hs; cbn; [apply IH |].
  rewrite IH. destruct f, s; try reflexivity; discriminate Hs.
Qed.

Lemma calls_zero_then_unset (f : Claim.field) (pre post : list Claim.setter) :
  Claim.calls Claim.NewStreamClaimOptions
    (pre ++ Claim.callTo f 0 :: Claim.leaveUnset f post)
  = Claim.calls Claim.NewStreamClaimOptions
      (Claim.leaveUnset f (pre ++ post)).
Proof.
  unfold Claim.leaveUnset at 2. rewrite List.filter_app.
  fold (Claim.leaveUnset f pre) (Claim.leaveUnset f post).
  unfold Claim.calls. rewrite !fold_left_app. cbn [fold_left].
  f_equal. fold (Claim.calls Claim.NewStreamClaimOptions pre).
  fold (Claim.calls Claim.NewStreamClaimOptions (Claim.leaveUnset f pre)).
  apply (agreeBut_eq f).
  - pose proof (agreeBut_calls f pre _ _
                  (conj eq_refl (fun g _ => eq_refl)
                   : agreeBut f Claim.NewStreamClaimOptions
                                Claim.NewStreamClaimOptions)) as [Hforce Hget].
    split.
    + rewrite <- Hforce. destruct f; reflexivity.
    + intros g Hg. rewrite <- (Hget g Hg).
      destruct f, g; try reflexivity; congruence.
  - rewrite get_calls_leaveUnset. destruct f; reflexivity.
Qed.

(** C8. [SetIdleTime(0)] (and likewise [SetIdleUnixTime(0)] and
    [SetRetryCount(0)]) gives options whose [ToArgs] output is the one of
    the same options with that field left unset: on any options value the
    output is that of the value with the field as the constructor leaves
    it, the pair of that field is absent from it, and on options built
    from [NewStreamClaimOptions] a final call of the setter with [0] can
    be dropped together with every earlier call of that setter. *)
Theorem Claim_zero_same_as_unset :
  (forall sco,
     Claim.ToArgs (Claim.SetIdleTime 0 sco)
       = Claim.ToArgs (Claim.unset Claim.IdleTime sco)
     /\ Claim.ToArgs (Claim.SetIdleTime 0 sco) =
          (Claim.pair "TIME" (Claim.idleUnixTime sco)
             ++ Claim.pair "RETRYCOUNT" (Claim.retryCount sco)
             ++ (if Claim.isForce sco then ["FORCE"] else []), None))
  /\ (forall sco,
        Claim.ToArgs (Claim.SetIdleUnixTime 0 sco)
          = Claim.ToArgs (Claim.unset Claim.IdleUnixTime sco)
        /\ Claim.ToArgs (Claim.SetIdleUnixTime 0 sco) =
             (Claim.pair "IDLE" (Claim.idleTime sco)
                ++ Claim.pair "RETRYCOUNT" (Claim.retryCount sco)
                ++ (if Claim.isForce sco then ["FORCE"] else []), None))
  /\ (forall sco,
        Claim.ToArgs (Claim.SetRetryCount 0 sco)
          = Claim.ToArgs (Claim.unset Claim.RetryCount sco)
        /\ Claim.ToArgs (Claim.SetRetryCount 0 sco) =
             (Claim.pair "IDLE" (Claim.idleTime sco)
                ++ Claim.pair "TIME" (Claim.idleUnixTime sco)
                ++ (if Claim.isForce sco then ["FORCE"] else []), None))
  /\ (forall f pre post,
        Claim.ToArgs
          (Claim.calls Claim.NewStreamClaimOptions
             (pre ++ Claim.callTo f 0 :: Claim.leaveUnset f post))
        = Claim.ToArgs
            (Claim.calls Claim.NewStreamClaimOptions
               (Claim.leaveUnset f (pre ++ post)))).
Proof.
  repeat split; try (rewrite Claim_ToArgs_eq; cbn; rewrite ?app_nil_r; reflexivity).
  intros f pre post. rewrite calls_zero_then_unset. reflexivity.
Qed.

(** ** The force flag *)

Lemma Claim_calls_isForce (ss : list Claim.setter) :
  forall sco, Claim.isForce (Claim.calls sco ss) = Claim.isForce sco.
Proof.
  unfold Claim.calls.
  induction ss as [| s ss IH]; intros sco; cbn; [reflexivity |].
  rewrite IH. destruct s; reflexivity.
Qed.

Lemma Claim_pair_not_FORCE (keyword : string) (v : Z) :
  keyword <> "FORCE" -> ~ In "FORCE" (Claim.pair keyword v).
Proof.
  intros Hk. unfold Claim.pair. destruct (Z_lt_dec 0 v); cbn; [| tauto].
  intros [H | [H | []]]; [congruence |].
  exact (IntToString_not_FORCE v H).
Qed.

(** C9. Options reached from [NewStreamClaimOptions] through any sequence
    of the exported setters have [isForce = false], and their [ToArgs]
    output does not hold the token [FORCE]. *)
Theorem Claim_builders_never_force (ss : list Claim.setter) :
  Claim.isForce (Claim.calls Claim.NewStreamClaimOptions ss) = false
  /\ ~ In "FORCE"
         (fst (Claim.ToArgs (Claim.calls Claim.NewStreamClaimOptions ss))).
Proof.
  assert (Hf : Claim.isForce (Claim.calls Claim.NewStreamClaimOptions ss)
               = false) by apply Claim_calls_isForce.
  split; [exact Hf |].
  rewrite Claim_ToArgs_eq, Hf. cbn [fst].
  rewrite !in_app_iff. intros [H | [H | [H | []]]]; revert H;
    apply Claim_pair_not_FORCE; discriminate.
Qed.

(** ** Negative values *)

(** C10. Strictly negative values are encoded as unset ones: a trim
    specification with a negative limit yields no [LIMIT] pair, and claim
    options with a negative [idleTime], [idleUnixTime] or [retryCount]
    yield no pair for that field; in each case the output is the one of
    the value with the field unset. *)
Theorem negative_same_as_unset :
  (forall xto,
     XTrim.limit xto < 0 ->
     XTrim.ToArgs xto =
       ([XTrim.method xto] ++ exactMarker (XTrim.exact xto)
          ++ [XTrim.threshold xto], None)
     /\ XTrim.ToArgs xto = XTrim.ToArgs (XTrim.unsetLimit xto))
  /\ (forall f sco,
        Claim.get f sco < 0 ->
        Claim.ToArgs sco = Claim.ToArgs (Claim.unset f sco)
        /\ Claim.ToArgs sco =
             ((match f with
               | Claim.IdleTime => []
               | _ => Claim.pair "IDLE" (Claim.idleTime sco)
               end)
              ++ (match f with
                  | Claim.IdleUnixTime => []
                  | _ => Claim.pair "TIME" (Claim.idleUnixTime sco)
                  end)
              ++ (match f with
                  | Claim.RetryCount => []
                  | _ => Claim.pair "RETRYCOUNT" (Claim.retryCount sco)
                  end)
              ++ (if Claim.isForce sco then ["FORCE"] else []), None)).
Proof.
  split.
  - intros xto Hneg. rewrite !XTrim_ToArgs_eq. cbn.
    destruct (Z_lt_dec 0 (XTrim.limit xto)); [lia |].
    split; reflexivity.
  - intros f sco Hneg. rewrite !Claim_ToArgs_eq.
    destruct f; cbn in *; rewrite (Claim_pair_nonpositive _ _ (Z.lt_le_incl _ _ Hneg));
      split; reflexivity.
Qed.

Lemma negative_same_as_unset_witness :
  (XTrim.ToArgs
     (XTrim.SetNearlyExactTrimmingAndLimit (-5)
        (XTrim.NewXTrimOptionsWithMaxLen 1000))
   = (["MAXLEN"; "~"; "1000"], None)
   /\ XTrim.ToArgs
        (XTrim.SetNearlyExactTrimmingAndLimit (-5)
           (XTrim.NewXTrimOptionsWithMaxLen 1000))
      = XTrim.ToArgs
          (XTrim.unsetLimit
             (XTrim.SetNearlyExactTrimmingAndLimit (-5)
                (XTrim.NewXTrimOptionsWithMaxLen 1000))))
  /\ Claim.ToArgs
       (Claim.SetRetryCount 3
          (Claim.SetIdleTime (-7) Claim.NewStreamClaimOptions))
     = Claim.ToArgs
         (Claim.unset Claim.IdleTime
            (Claim.SetRetryCount 3
               (Claim.SetIdleTime (-7) Claim.NewStreamClaimOptions))).
Proof.
  split.
  - apply (proj1 negative_same_as_unset
             (XTrim.SetNearlyExactTrimmingAndLimit (-5)
                (XTrim.NewXTrimOptionsWithMaxLen 1000))).
    reflexivity.
  - apply (proj2 negative_same_as_unset Claim.IdleTime
             (Claim.SetRetryCount 3
                (Claim.SetIdleTime (-7) Claim.NewStreamClaimOptions))).
    reflexivity.
Defined.

(** ** Errors of a nested encode step *)

Lemma ZScan_ToArgs_eq (B : Type) (baseToArgs : B -> encoded)
    (NoScores : string) (options : ZScan.ZScanOptions B) :
  ZScan.ToArgs baseToArgs NoScores options =
  (fst (baseToArgs (ZScan.base options))
     ++ (if ZScan.noScores options then [NoScores] else []),
   snd (baseToArgs (ZScan.base options))).
Proof.
  unfold ZScan.ToArgs.
  destruct (baseToArgs (ZScan.base options)) as [baseArgs err].
  destruct (ZScan.noScores options); cbn; rewrite ?app_nil_r; reflexivity.
Qed.




(** What the scan encoder does at a base step that errors after the
    [MATCH] pair. *)
Example ZScan_failing_base :
  ZScan.ToArgs failingBaseToArgs "NOSCORES"
    (ZScan.mkZScanOptions tt true)
  = (["MATCH"; "a*"; "NOSCORES"], Some "invalid scan options").
Proof. reflexivity. Qed.

(** ** The result of a claim *)

Lemma toClaimMap_snoc (reply : list Stream.entry) (e : Stream.entry) :
  Stream.toClaimMap (reply ++ [e]) = <[fst e := snd e]> (Stream.toClaimMap reply).
Proof. unfold Stream.toClaimMap. rewrite fold_left_app. reflexivity. Qed.

Lemma toClaimMap_list_to_map (reply : list Stream.entry) :
  Stream.toClaimMap reply = list_to_map (reverse reply).
Proof.
  induction reply as [| [k v] reply IH] using rev_ind; [reflexivity |].
  rewrite toClaimMap_snoc, reverse_snoc, IH. reflexivity.
Qed.

Lemma toClaimMap_lookup (reply : list Stream.entry) k v :
  NoDup (reply.*1) -> (k, v) ∈ reply -> Stream.toClaimMap reply !! k = Some v.
Proof.
  intros Hnd Hin. rewrite toClaimMap_list_to_map.
  apply elem_of_list_to_map_1.
  - rewrite fmap_reverse, reverse_Permutation. exact Hnd.
  - apply elem_of_reverse. exact Hin.
Qed.

Lemma toClaimMap_perm (r1 r2 : list Stream.entry) :
  NoDup (r1.*1) -> r1 ≡ₚ r2 -> Stream.toClaimMap r1 = Stream.toClaimMap r2.
Proof.
  intros Hnd Hp. rewrite !toClaimMap_list_to_map.
  apply list_to_map_proper.
  - rewrite fmap_reverse, reverse_Permutation. exact Hnd.
  - rewrite !reverse_Permutation. exact Hp.
Qed.

Lemma toClaimMap_to_list (reply : list Stream.entry) :
  NoDup (reply.*1) -> map_to_list (Stream.toClaimMap reply) ≡ₚ reply.
Proof.
  intros Hnd. rewrite toClaimMap_list_to_map.
  rewrite map_to_list_to_map.
  - apply reverse_Permutation.
  - rewrite fmap_reverse, reverse_Permutation. exact Hnd.
Qed.




(** * Further properties of the builders and encoders *)

Lemma lastOf_snoc {S A : Type} (pick : S -> option A) (ss : list S) (s : S) :
  lastOf pick (ss ++ [s]) =
  match pick s with Some a => Some a | None => lastOf pick ss end.
Proof. unfold lastOf. rewrite fold_left_app. reflexivity. Qed.

Lemma existsb_snoc {S : Type} (p : S -> bool) (ss : list S) (s : S) :
  existsb p (ss ++ [s]) = existsb p ss || p s.
Proof. rewrite existsb_app. cbn. rewrite orb_false_r. reflexivity. Qed.

(** ** Chains of calls on add options *)

Lemma XAdd_calls_snoc (xao : XAdd.XAddOptions) ss s :
  XAdd.calls xao (ss ++ [s]) = XAdd.call (XAdd.calls xao ss) s.
Proof. unfold XAdd.calls. rewrite fold_left_app. reflexivity. Qed.

Lemma XAdd_calls_id (xao : XAdd.XAddOptions) ss :
  XAdd.id (XAdd.calls xao ss) = default (XAdd.id xao) (lastOf XAdd.idOf ss).
Proof.
  induction ss as [| s ss IH] using rev_ind; [reflexivity |].
  rewrite XAdd_calls_snoc, lastOf_snoc. destruct s; cbn; auto.
Qed.

Lemma XAdd_calls_trimOptions (xao : XAdd.XAddOptions) ss :
  XAdd.trimOptions (XAdd.calls xao ss)
  = default (XAdd.trimOptions xao) (lastOf XAdd.trimOf ss).
Proof.
  induction ss as [| s ss IH] using rev_ind; [reflexivity |].
  rewrite XAdd_calls_snoc, lastOf_snoc. destruct s; cbn; auto.
Qed.

Lemma XAdd_calls_makeStream (xao : XAdd.XAddOptions) ss :
  XAdd.makeStream (XAdd.calls xao ss)
  = if existsb XAdd.isDontMake ss then triStateBoolFalse
    else XAdd.makeStream xao.
Proof.
  induction ss as [| s ss IH] using rev_ind; [reflexivity |].
  rewrite XAdd_calls_snoc, existsb_snoc.
  destruct s; cbn; rewrite ?orb_false_r, ?orb_true_r; auto.
Qed.

Lemma XAdd_ToArgs_eq (xao : XAdd.XAddOptions) :
  XAdd.ToArgs xao =
  ((if triStateBool_eqb (XAdd.makeStream xao) triStateBoolFalse
    then ["NOMKSTREAM"] else [])
     ++ from_option (fun options => fst (XTrim.ToArgs options)) []
                    (XAdd.trimOptions xao)
     ++ [if String.eqb (XAdd.id xao) "" then "*" else XAdd.id xao],
   None).
Proof.
  unfold XAdd.ToArgs, XAdd.ToArgsWith, XAdd.appendId.
  destruct (XAdd.trimOptions xao) as [options |]; cbn [from_option].
  - rewrite XTrim_ToArgs_eq. cbn [fst].
    destruct (String.eqb (XAdd.id xao) ""); cbn [negb];
      rewrite <- !app_assoc; reflexivity.
  - destruct (String.eqb (XAdd.id xao) ""); reflexivity.
Qed.

Lemma XTrim_ToArgs_length (xto : XTrim.XTrimOptions) :
  (2 <= length (fst (XTrim.ToArgs xto)) <= 5)%nat.
Proof.
  rewrite XTrim_ToArgs_eq. cbn [fst].
  destruct (XTrim.exact xto), (Z_lt_dec 0 (XTrim.limit xto)); cbn; lia.
Qed.

(** X1. After any chain of setter calls the add options hold the id of
    the last [SetId] call, the trim specification of the last
    [SetTrimOptions] call (a nil one detaches it), and forbid stream
    creation exactly when [SetDontMakeNewStream] was called somewhere in
    the chain or creation was already forbidden; fields that no call
    wrote keep their value. *)
Theorem XAdd_chain_fields (xao : XAdd.XAddOptions) (ss : list XAdd.setter) :
  XAdd.id (XAdd.calls xao ss) = default (XAdd.id xao) (lastOf XAdd.idOf ss)
  /\ XAdd.trimOptions (XAdd.calls xao ss)
     = default (XAdd.trimOptions xao) (lastOf XAdd.trimOf ss)
  /\ XAdd.makeStream (XAdd.calls xao ss)
     = if existsb XAdd.isDontMake ss then triStateBoolFalse
       else XAdd.makeStream xao.
Proof.
  split; [apply XAdd_calls_id |].
  split; [apply XAdd_calls_trimOptions | apply XAdd_calls_makeStream].
Qed.

(** X2. No chain of setter calls from [NewXAddOptions] reaches the
    explicit-true state of [makeStream], and [SetDontMakeNewStream]
    cannot be undone: whatever is called before and after it,
    [NOMKSTREAM] is the first token of [ToArgs]. *)
Theorem XAdd_no_create_is_final :
  (forall ss,
     XAdd.makeStream (XAdd.calls XAdd.NewXAddOptions ss) <> triStateBoolTrue)
  /\ (forall pre post,
        head (fst (XAdd.ToArgs
                     (XAdd.calls XAdd.NewXAddOptions
                        (pre ++ XAdd.CallSetDontMakeNewStream :: post))))
        = Some "NOMKSTREAM").
Proof.
  split.
  - intros ss. rewrite XAdd_calls_makeStream.
    destruct (existsb XAdd.isDontMake ss); discriminate.
  - intros pre post. rewrite XAdd_ToArgs_eq, XAdd_calls_makeStream.
    rewrite existsb_app. cbn. rewrite orb_true_r. reflexivity.
Qed.

(** X3. [XAddOptions.ToArgs] never returns an empty token list: its last
    token is the id, or [*] when the id is empty, and is never the empty
    string; the list has between one and seven tokens. *)
Theorem XAdd_ToArgs_last_token (xao : XAdd.XAddOptions) :
  exists t,
    last (fst (XAdd.ToArgs xao)) = Some t
    /\ t <> ""
    /\ (XAdd.id xao = "" /\ t = "*" \/ XAdd.id xao <> "" /\ t = XAdd.id xao)
    /\ (1 <= length (fst (XAdd.ToArgs xao)) <= 7)%nat.
Proof.
  rewrite XAdd_ToArgs_eq. cbn [fst].
  exists (if String.eqb (XAdd.id xao) "" then "*" else XAdd.id xao).
  split; [| split; [| split]].
  - rewrite !app_assoc. apply last_snoc.
  - destruct (String.eqb_spec (XAdd.id xao) ""); [discriminate | assumption].
  - destruct (String.eqb_spec (XAdd.id xao) ""); auto.
  - rewrite !length_app. cbn [length].
    assert (length (from_option (fun options => fst (XTrim.ToArgs options)) []
                                (XAdd.trimOptions xao)) <= 5)%nat.
    { destruct (XAdd.trimOptions xao) as [options |]; cbn; [| lia].
      apply XTrim_ToArgs_length. }
    destruct (triStateBool_eqb (XAdd.makeStream xao) triStateBoolFalse);
      cbn [length]; lia.
Qed.

(** ** Chains of calls on a trim specification *)

Lemma XTrim_calls_snoc (xto : XTrim.XTrimOptions) ss s :
  XTrim.calls xto (ss ++ [s]) = XTrim.call (XTrim.calls xto ss) s.
Proof. unfold XTrim.calls. rewrite fold_left_app. reflexivity. Qed.

Lemma XTrim_calls_threshold (xto : XTrim.XTrimOptions) ss :
  XTrim.threshold (XTrim.calls xto ss) = XTrim.threshold xto.
Proof.
  induction ss as [| s ss IH] using rev_ind; [reflexivity |].
  rewrite XTrim_calls_snoc. destruct s; exact IH.
Qed.

Lemma XTrim_calls_limit_marker (xto : XTrim.XTrimOptions) ss :
  (XTrim.exact xto = triStateBoolUndefined -> XTrim.limit xto = 0) ->
  XTrim.exact (XTrim.calls xto ss) = triStateBoolUndefined ->
  XTrim.limit (XTrim.calls xto ss) = 0.
Proof.
  intros Hstart.
  induction ss as [| s ss IH] using rev_ind; [exact Hstart |].
  rewrite XTrim_calls_snoc. destruct s; cbn; discriminate.
Qed.

Lemma trimShape_calls (xto : XTrim.XTrimOptions) ss :
  (XTrim.exact xto = triStateBoolUndefined -> XTrim.limit xto = 0) ->
  trimShape (XTrim.method xto) (XTrim.threshold xto) (XTrim.calls xto ss).
Proof.
  intros Hstart. unfold trimShape.
  pose proof (XTrim_calls_limit_marker xto ss Hstart) as Hinv.
  rewrite XTrim_ToArgs_eq, XTrim_calls_method, XTrim_calls_threshold.
  cbn [fst].
  destruct (XTrim.exact (XTrim.calls xto ss)); cbn.
  - rewrite Hinv by reflexivity. left. reflexivity.
  - right. exists "=". split; [auto |].
    destruct (Z_lt_dec 0 (XTrim.limit (XTrim.calls xto ss))); auto.
  - right. exists "~". split; [auto |].
    destruct (Z_lt_dec 0 (XTrim.limit (XTrim.calls xto ss))); auto.
Qed.

(** X4. Whatever setters are called on a trim specification made by a
    factory, its threshold stays the one given to the factory and a
    [LIMIT] pair never comes without an exactness marker: the output is
    [method, threshold], or [method, marker, threshold], or
    [method, marker, threshold, LIMIT, limit] with a positive limit, the
    marker being [=] or [~]. *)
Theorem XTrim_chain_outputs (ss : list XTrim.setter) :
  (forall th : Z,
     trimShape "MAXLEN" (IntToString th)
               (XTrim.calls (XTrim.NewXTrimOptionsWithMaxLen th) ss))
  /\ (forall th : string,
        trimShape "MINID" th
                  (XTrim.calls (XTrim.NewXTrimOptionsWithMinId th) ss)).
Proof.
  split; intros th.
  - apply (trimShape_calls (XTrim.NewXTrimOptionsWithMaxLen th)). reflexivity.
  - apply (trimShape_calls (XTrim.NewXTrimOptionsWithMinId th)). reflexivity.
Qed.

Lemma XTrim_calls_exact (xto : XTrim.XTrimOptions) ss :
  XTrim.exact (XTrim.calls xto ss)
  = default (XTrim.exact xto) (lastOf XTrim.exactOf ss).
Proof.
  induction ss as [| s ss IH] using rev_ind; [reflexivity |].
  rewrite XTrim_calls_snoc, lastOf_snoc. destruct s; reflexivity.
Qed.

Lemma XTrim_calls_limit (xto : XTrim.XTrimOptions) ss :
  XTrim.limit (XTrim.calls xto ss)
  = default (XTrim.limit xto) (lastOf XTrim.limitOf ss).
Proof.
  induction ss as [| s ss IH] using rev_ind; [reflexivity |].
  rewrite XTrim_calls_snoc, lastOf_snoc. destruct s; cbn; auto.
Qed.

(** X11. After any chain of setter calls on a trim specification, its
    exactness is the one of the last call (explicit-true for
    [SetExactTrimming], explicit-false for the two others) and its limit
    is the argument of the last [SetNearlyExactTrimmingAndLimit] call,
    whatever was called after it; with no such call the limit is
    unchanged. *)
Theorem XTrim_chain_fields (xto : XTrim.XTrimOptions)
    (ss : list XTrim.setter) :
  XTrim.exact (XTrim.calls xto ss)
  = default (XTrim.exact xto) (lastOf XTrim.exactOf ss)
  /\ XTrim.limit (XTrim.calls xto ss)
     = default (XTrim.limit xto) (lastOf XTrim.limitOf ss)
  /\ XTrim.threshold (XTrim.calls xto ss) = XTrim.threshold xto.
Proof.
  split; [apply XTrim_calls_exact |].
  split; [apply XTrim_calls_limit | apply XTrim_calls_threshold].
Qed.

(** X5. [SetExactTrimming] does not clear a limit set before it: after
    [SetNearlyExactTrimmingAndLimit(n)] with [n > 0] followed by
    [SetExactTrimming], [ToArgs] emits the exact marker [=] together with
    the pair [LIMIT], [str(n)]; [SetNearlyExactTrimming] after it changes
    nothing. *)
Theorem XTrim_exact_keeps_limit (xto : XTrim.XTrimOptions) (n : Z) :
  0 < n ->
  XTrim.ToArgs
    (XTrim.SetExactTrimming (XTrim.SetNearlyExactTrimmingAndLimit n xto))
  = ([XTrim.method xto; "="; XTrim.threshold xto; "LIMIT"; IntToString n],
     None)
  /\ XTrim.ToArgs
       (XTrim.SetNearlyExactTrimming
          (XTrim.SetNearlyExactTrimmingAndLimit n xto))
     = ([XTrim.method xto; "~"; XTrim.threshold xto; "LIMIT"; IntToString n],
        None).
Proof.
  intros Hn. rewrite !XTrim_ToArgs_eq. cbn.
  destruct (Z_lt_dec 0 n); [| lia]. split; reflexivity.
Qed.

Lemma XTrim_exact_keeps_limit_witness :
  XTrim.ToArgs
    (XTrim.SetExactTrimming
       (XTrim.SetNearlyExactTrimmingAndLimit 10
          (XTrim.NewXTrimOptionsWithMaxLen 1000)))
  = (["MAXLEN"; "="; "1000"; "LIMIT"; "10"], None).
Proof.
  apply (XTrim_exact_keeps_limit (XTrim.NewXTrimOptionsWithMaxLen 1000) 10).
  reflexivity.
Defined.

(** ** Chains of calls on claim options *)

Lemma Claim_calls_snoc (sco : Claim.StreamClaimOptions) ss s :
  Claim.calls sco (ss ++ [s]) = Claim.call (Claim.calls sco ss) s.
Proof. unfold Claim.calls. rewrite fold_left_app. reflexivity. Qed.

Lemma Claim_calls_get (f : Claim.field) (sco : Claim.StreamClaimOptions) ss :
  Claim.get f (Claim.calls sco ss)
  = default (Claim.get f sco) (lastOf (Claim.valueOf f) ss).
Proof.
  induction ss as [| s ss IH] using rev_ind; [reflexivity |].
  rewrite Claim_calls_snoc, lastOf_snoc. destruct f, s; cbn; auto.
Qed.

(** X6. On claim options each setter is last-write-wins and touches no
    other field: after any chain of calls a numeric field holds the
    argument of the last call of its setter, or its former value when
    there is none, and the output of a chain from
    [NewStreamClaimOptions] is made of the pairs of these last values,
    without [FORCE]. *)
Theorem Claim_chain_last_wins (ss : list Claim.setter) :
  (forall f sco,
     Claim.get f (Claim.calls sco ss)
     = default (Claim.get f sco) (lastOf (Claim.valueOf f) ss))
  /\ Claim.ToArgs (Claim.calls Claim.NewStreamClaimOptions ss) =
       (Claim.pair "IDLE"
          (default 0 (lastOf (Claim.valueOf Claim.IdleTime) ss))
        ++ Claim.pair "TIME"
             (default 0 (lastOf (Claim.valueOf Claim.IdleUnixTime) ss))
        ++ Claim.pair "RETRYCOUNT"
             (default 0 (lastOf (Claim.valueOf Claim.RetryCount) ss)),
        None).
Proof.
  split; [intros f sco; apply Claim_calls_get |].
  rewrite Claim_ToArgs_eq, Claim_calls_isForce.
  pose proof (Claim_calls_get Claim.IdleTime Claim.NewStreamClaimOptions ss) as H1.
  pose proof (Claim_calls_get Claim.IdleUnixTime Claim.NewStreamClaimOptions ss) as H2.
  pose proof (Claim_calls_get Claim.RetryCount Claim.NewStreamClaimOptions ss) as H3.
  cbn in H1, H2, H3. rewrite H1, H2, H3. cbn. rewrite app_nil_r. reflexivity.
Qed.

(** ** Reading the output of the claim encoder back *)

Lemma StringToInt_IntToString (v : Z) : StringToInt (IntToString v) = Some v.
Proof.
  unfold StringToInt, IntToString.
  rewrite NilZero.isi.
  - rewrite DecimalZ.of_to. reflexivity.
  - destruct v as [| p | p]; cbn; try discriminate.
    intros [= H]. exact (DecimalPos.Unsigned.to_uint_nonnil p H).
  - destruct v as [| p | p]; cbn; try discriminate.
    intros [= H]. exact (DecimalPos.Unsigned.to_uint_nonnil p H).
Qed.

Lemma IntToString_inj (a b : Z) : IntToString a = IntToString b -> a = b.
Proof.
  intros H. apply (f_equal StringToInt) in H.
  rewrite !StringToInt_IntToString in H. congruence.
Qed.

Lemma IntToString_not_upper (v : Z) (c : ascii) (s : string) :
  decimalHead c = false -> IntToString v <> String c s.
Proof.
  intros Hc H. destruct (IntToString_head v) as (c' & s' & E & Hc').
  rewrite E in H. injection H as -> _. congruence.
Qed.

Ltac clash :=
  match goal with
  | H : IntToString _ = String _ _ |- _ =>
      exfalso; revert H; apply IntToString_not_upper; reflexivity
  | H : String _ _ = IntToString _ |- _ =>
      exfalso; symmetry in H; revert H; apply IntToString_not_upper;
      reflexivity
  end.

Lemma Claim_pair_effective (keyword : string) (v : Z) :
  Claim.pair keyword (Z.max 0 v) = Claim.pair keyword v.
Proof.
  unfold Claim.pair.
  destruct (Z_lt_dec 0 v), (Z_lt_dec 0 (Z.max 0 v)); try lia.
  - rewrite Z.max_r by lia. reflexivity.
  - reflexivity.
Qed.

Lemma Claim_ToArgs_effective (sco : Claim.StreamClaimOptions) :
  Claim.ToArgs (Claim.effective sco) = Claim.ToArgs sco.
Proof.
  rewrite !Claim_ToArgs_eq. cbn. rewrite !Claim_pair_effective. reflexivity.
Qed.

Lemma Claim_ToArgs_inj (a b : Claim.StreamClaimOptions) :
  Claim.ToArgs a = Claim.ToArgs b -> Claim.effective a = Claim.effective b.
Proof.
  rewrite !Claim_ToArgs_eq. unfold Claim.pair, Claim.effective.
  destruct a as [i1 u1 r1 f1], b as [i2 u2 r2 f2]. cbn.
  intros H.
  destruct (Z_lt_dec 0 i1), (Z_lt_dec 0 i2),
           (Z_lt_dec 0 u1), (Z_lt_dec 0 u2),
           (Z_lt_dec 0 r1), (Z_lt_dec 0 r2), f1, f2;
    cbn in H; simplify_eq; try clash;
    repeat match goal with
           | E : IntToString _ = IntToString _ |- _ =>
               apply IntToString_inj in E
           end;
    f_equal; lia.
Qed.

(** X7. The output of [StreamClaimOptions.ToArgs] determines the options
    up to what the encoder ignores: two option values have the same
    output exactly when they have the same force flag and their numeric
    fields agree once the values that are not strictly positive are
    read as [0]. *)
Theorem Claim_ToArgs_same_output (a b : Claim.StreamClaimOptions) :
  Claim.ToArgs a = Claim.ToArgs b <-> Claim.effective a = Claim.effective b.
Proof.
  split.
  - apply Claim_ToArgs_inj.
  - intros H. rewrite <- (Claim_ToArgs_effective a), H.
    apply Claim_ToArgs_effective.
Qed.

(** ** The vocabulary of the claim encoder *)

Lemma Claim_pair_tokens (keyword : string) (v : Z) (t : string) :
  In t (Claim.pair keyword v) ->
  t = keyword \/ exists w, 0 < w /\ t = IntToString w.
Proof.
  unfold Claim.pair. destruct (Z_lt_dec 0 v); cbn; [| tauto].
  intros [<- | [<- | []]]; eauto.
Qed.

Lemma Claim_pair_length (keyword : string) (v : Z) :
  (length (Claim.pair keyword v) <= 2)%nat.
Proof. unfold Claim.pair. destruct (Z_lt_dec 0 v); cbn; lia. Qed.

(** X8. Every token [StreamClaimOptions.ToArgs] returns is one of the
    keywords [IDLE], [TIME], [RETRYCOUNT], [FORCE] or the decimal
    rendering of a strictly positive number; the encoder never emits
    [JUSTID], and never more than seven tokens. *)
Theorem Claim_ToArgs_vocabulary (sco : Claim.StreamClaimOptions) :
  (forall t,
     In t (fst (Claim.ToArgs sco)) ->
     In t ["IDLE"; "TIME"; "RETRYCOUNT"; "FORCE"]
     \/ exists w, 0 < w /\ t = IntToString w)
  /\ ~ In Claim.JUST_ID_VALKEY_API (fst (Claim.ToArgs sco))
  /\ (length (fst (Claim.ToArgs sco)) <= 7)%nat.
Proof.
  assert (Hvoc : forall t,
    In t (fst (Claim.ToArgs sco)) ->
    In t ["IDLE"; "TIME"; "RETRYCOUNT"; "FORCE"]
    \/ exists w, 0 < w /\ t = IntToString w).
  { intros t. rewrite Claim_ToArgs_eq. cbn [fst]. rewrite !in_app_iff.
    intros [H | [H | [H | H]]];
      try (apply Claim_pair_tokens in H as [-> | H]; cbn; tauto).
    destruct (Claim.isForce sco); cbn in H; [| tauto].
    destruct H as [<- | []]. cbn. tauto. }
  split; [exact Hvoc |]. split.
  - intros H. apply Hvoc in H as [H | (w & _ & H)].
    + cbn in H. intuition discriminate.
    + symmetry in H. revert H. apply IntToString_not_upper. reflexivity.
  - rewrite Claim_ToArgs_eq. cbn [fst]. rewrite !length_app.
    pose proof (Claim_pair_length "IDLE" (Claim.idleTime sco)).
    pose proof (Claim_pair_length "TIME" (Claim.idleUnixTime sco)).
    pose proof (Claim_pair_length "RETRYCOUNT" (Claim.retryCount sco)).
    destruct (Claim.isForce sco); cbn [length]; lia.
Qed.

(** ** Chains of calls on scan options *)

Section ZScanChains.

Context {B : Type}.
Variable baseToArgs : B -> encoded.
Variable NoScores : string.
Variable zero : B.
Variable setMatch : string -> B -> B.
Variable setCount : Z -> B -> B.

Lemma ZScan_calls_snoc (z : ZScan.ZScanOptions B) ss s :
  ZScan.calls setMatch setCount z (ss ++ [s])
  = ZScan.call setMatch setCount (ZScan.calls setMatch setCount z ss) s.
Proof. unfold ZScan.calls. rewrite fold_left_app. reflexivity. Qed.

Lemma ZScan_calls_noScores (z : ZScan.ZScanOptions B) ss :
  ZScan.noScores (ZScan.calls setMatch setCount z ss)
  = default (ZScan.noScores z) (lastOf ZScan.noScoresOf ss).
Proof.
  induction ss as [| s ss IH] using rev_ind; [reflexivity |].
  rewrite ZScan_calls_snoc, lastOf_snoc. destruct s; cbn; auto.
Qed.

Lemma ZScan_calls_base (z : ZScan.ZScanOptions B) ss :
  ZScan.base (ZScan.calls setMatch setCount z ss)
  = ZScan.baseCalls setMatch setCount (ZScan.base z) ss.
Proof.
  induction ss as [| s ss IH] using rev_ind; [reflexivity |].
  rewrite ZScan_calls_snoc. unfold ZScan.baseCalls.
  rewrite fold_left_app. cbn [fold_left].
  fold (ZScan.baseCalls setMatch setCount (ZScan.base z) ss).
  rewrite <- IH. destruct s; reflexivity.
Qed.

(** X9. The scan builder is the base builder plus a flag: after any
    chain of calls from [NewZScanOptionsBuilder], [ToArgs] returns the
    tokens of the base options that the [SetMatch] and [SetCount] calls
    of the chain build, followed by the [NoScores] keyword exactly when
    the last [SetNoScores] call asked for it; the error is the one of
    the base encoder, and the tokens are returned whether or not there
    is an error. *)
Theorem ZScan_chain_ToArgs (ss : list ZScan.setter) :
  ZScan.ToArgs baseToArgs NoScores
    (ZScan.calls setMatch setCount (ZScan.NewZScanOptionsBuilder zero) ss)
  = (fst (baseToArgs (ZScan.baseCalls setMatch setCount zero ss))
       ++ (if default false (lastOf ZScan.noScoresOf ss)
           then [NoScores] else []),
     snd (baseToArgs (ZScan.baseCalls setMatch setCount zero ss))).
Proof.
  rewrite ZScan_ToArgs_eq, ZScan_calls_noScores, ZScan_calls_base.
  reflexivity.
Qed.

End ZScanChains.

(** ** A trim specification reached through two pointers *)


